(** * MlirOptMain.h: the configuration object of the mlir-opt driver

    A shallow embedding of [mlir::MlirOptMainConfig] and [asMainReturnCode]
    from [mlir/include/mlir/Tools/mlir-opt/MlirOptMain.h].

    - The class is a record with one field per data member, in declaration
      order and under the member's name.
    - A default-constructed object is the record of the default member
      initialisers.
    - A getter is a projection (negated where the header negates).
    - A fluent setter [T &f(x) { m = x; return *this; }] is split in two:
      the assignment is a function from objects to objects, and the
      [return *this] is modelled over a store of objects addressed by
      references ([fluent]).
    - [std::function<LogicalResult(PassManager &)>] is a possibly empty slot
      holding a function that takes the pass manager and gives back the
      result together with the pass manager it leaves behind. *)

From Stdlib Require Import ZArith List.
From stdpp Require Import base decidable option strings gmap.
Import ListNotations.

Local Open Scope Z_scope.

(** ** Types the header uses but does not declare *)

(** Modelled from the spec: [LogicalResult] comes from
    llvm/Support/LogicalResult.h, which the header only uses.  The spec
    describes the value as a single success/failure flag. *)
Record LogicalResult : Type := MkLogicalResult { isSuccess : bool }.

Definition success : LogicalResult := MkLogicalResult true.
Definition failure : LogicalResult := MkLogicalResult false.
Definition succeeded (r : LogicalResult) : bool := isSuccess r.
Definition failed (r : LogicalResult) : bool := negb (isSuccess r).

(** [EXIT_SUCCESS] and [EXIT_FAILURE] of <cstdlib>. *)
Definition EXIT_SUCCESS : Z := 0.
Definition EXIT_FAILURE : Z := 1.

(** [enum class VerbosityLevel { ErrorsOnly = 0, ErrorsAndWarnings,
    ErrorsWarningsAndRemarks }]. *)
Inductive VerbosityLevel : Type :=
| ErrorsOnly
| ErrorsAndWarnings
| ErrorsWarningsAndRemarks.

(** The enumerators' underlying values: the first is 0 and each later one is
    its predecessor plus one. *)
Definition VerbosityLevel_value (l : VerbosityLevel) : Z :=
  match l with
  | ErrorsOnly => 0
  | ErrorsAndWarnings => 1
  | ErrorsWarningsAndRemarks => 2
  end.

Module SourceMgrDiagnosticVerifierHandler.

(** Modelled from the spec: [SourceMgrDiagnosticVerifierHandler::Level] is
    declared outside the header.  The spec lists the values of
    verify-diagnostics as none, loose and strict. *)
Inductive Level : Type :=
| None
| Loose
| Strict.

#[global] Instance Level_eq_dec : EqDecision Level.
Proof. solve_decision. Defined.

End SourceMgrDiagnosticVerifierHandler.

(** [return r.succeeded() ? EXIT_SUCCESS : EXIT_FAILURE;] *)
Definition asMainReturnCode (r : LogicalResult) : Z :=
  if succeeded r then EXIT_SUCCESS else EXIT_FAILURE.

(** A reference to an object ([T &], [T *]): an address. *)
Definition ref : Type := positive.

(** ** The configuration class *)

Section Config.

(** [tracing::DebugConfig] (mlir/Debug/CLOptionsSetup.h) and the value its
    default constructor builds. *)
Variable DebugConfig : Type.
Variable defaultDebugConfig : DebugConfig.

(** [class PassManager;] is only forward-declared. *)
Variable PassManager : Type.

(** [kDefaultSplitMarker] (mlir/Support/ToolUtilities.h), the default
    argument of [splitInputFile] and of the setter [outputSplitMarker]. *)
Variable kDefaultSplitMarker : string.

(** A non-empty [std::function<LogicalResult(PassManager &)>]: called on a
    pass manager, it returns a result and leaves a pass manager behind. *)
Definition PassPipelineCallback : Type :=
  PassManager -> LogicalResult * PassManager.

(** The data members of [MlirOptMainConfig].  [std::function] can be
    empty and [std::optional] absent: both are [option]s.
    [logActionLocationFilter] is a vector of pointers. *)
Record MlirOptMainConfig : Type := MkMlirOptMainConfig {
  allowUnregisteredDialectsFlag : bool;
  debugConfig : DebugConfig;
  diagnosticVerbosityLevelFlag : VerbosityLevel;
  dumpPassPipelineFlag : bool;
  emitBytecodeFlag : bool;
  elideResourceDataFromBytecodeFlag : bool;
  irdlFileFlag : string;
  logActionLocationFilter : list ref;
  emitBytecodeVersion : option Z;
  passPipelineCallback : option PassPipelineCallback;
  listPassesFlag : bool;
  runReproducerFlag : bool;
  showDialectsFlag : bool;
  disableDiagnosticNotesFlag : bool;
  splitInputFileFlag : string;
  outputSplitMarkerFlag : string;
  useExplicitModuleFlag : bool;
  verifyDiagnosticsFlag : SourceMgrDiagnosticVerifierHandler.Level;
  verifyPassesFlag : bool;
  disableVerifierOnParsingFlag : bool;
  verifyRoundtripFlag : bool;
  generateReproducerFileFlag : string
}.

(** The default-constructed object: every member takes its default member
    initialiser; members without one are default-constructed (an empty
    vector, an empty [std::function]). *)
Definition defaultConfig : MlirOptMainConfig :=
  {| allowUnregisteredDialectsFlag := false;
     debugConfig := defaultDebugConfig;
     diagnosticVerbosityLevelFlag := ErrorsWarningsAndRemarks;
     dumpPassPipelineFlag := false;
     emitBytecodeFlag := false;
     elideResourceDataFromBytecodeFlag := false;
     irdlFileFlag := "";
     logActionLocationFilter := [];
     emitBytecodeVersion := None;
     passPipelineCallback := None;
     listPassesFlag := false;
     runReproducerFlag := false;
     showDialectsFlag := false;
     disableDiagnosticNotesFlag := true;
     splitInputFileFlag := "";
     outputSplitMarkerFlag := "";
     useExplicitModuleFlag := false;
     verifyDiagnosticsFlag := SourceMgrDiagnosticVerifierHandler.None;
     verifyPassesFlag := true;
     disableVerifierOnParsingFlag := false;
     verifyRoundtripFlag := false;
     generateReproducerFileFlag := "" |}.

(** *** Getters *)

Definition shouldAllowUnregisteredDialects (c : MlirOptMainConfig) : bool :=
  allowUnregisteredDialectsFlag c.

Definition getDebugConfig (c : MlirOptMainConfig) : DebugConfig :=
  debugConfig c.

Definition getDiagnosticVerbosityLevel (c : MlirOptMainConfig)
  : VerbosityLevel :=
  diagnosticVerbosityLevelFlag c.

Definition shouldDumpPassPipeline (c : MlirOptMainConfig) : bool :=
  dumpPassPipelineFlag c.

Definition shouldEmitBytecode (c : MlirOptMainConfig) : bool :=
  emitBytecodeFlag c.

Definition shouldElideResourceDataFromBytecode (c : MlirOptMainConfig)
  : bool :=
  elideResourceDataFromBytecodeFlag c.

(** [return !disableDiagnosticNotesFlag;] *)
Definition shouldShowNotes (c : MlirOptMainConfig) : bool :=
  negb (disableDiagnosticNotesFlag c).

Definition getIrdlFile (c : MlirOptMainConfig) : string := irdlFileFlag c.

Definition bytecodeVersionToEmit (c : MlirOptMainConfig) : option Z :=
  emitBytecodeVersion c.

(** [if (passPipelineCallback) return passPipelineCallback(pm);
    return success();] *)
Definition setupPassPipeline (c : MlirOptMainConfig) (pm : PassManager)
  : LogicalResult * PassManager :=
  match passPipelineCallback c with
  | Some callback => callback pm
  | None => (success, pm)
  end.

Definition shouldListPasses (c : MlirOptMainConfig) : bool :=
  listPassesFlag c.

Definition shouldRunReproducer (c : MlirOptMainConfig) : bool :=
  runReproducerFlag c.

Definition shouldShowDialects (c : MlirOptMainConfig) : bool :=
  showDialectsFlag c.

Definition inputSplitMarker (c : MlirOptMainConfig) : string :=
  splitInputFileFlag c.

(** The getter overload [StringRef outputSplitMarker() const]. *)
Definition outputSplitMarker (c : MlirOptMainConfig) : string :=
  outputSplitMarkerFlag c.

Definition shouldUseExplicitModule (c : MlirOptMainConfig) : bool :=
  useExplicitModuleFlag c.

(** [return verifyDiagnosticsFlag !=
    SourceMgrDiagnosticVerifierHandler::Level::None;] *)
Definition shouldVerifyDiagnostics (c : MlirOptMainConfig) : bool :=
  negb (bool_decide
          (verifyDiagnosticsFlag c = SourceMgrDiagnosticVerifierHandler.None)).

Definition verifyDiagnosticsLevel (c : MlirOptMainConfig)
  : SourceMgrDiagnosticVerifierHandler.Level :=
  verifyDiagnosticsFlag c.

Definition shouldVerifyPasses (c : MlirOptMainConfig) : bool :=
  verifyPassesFlag c.

(** [return !disableVerifierOnParsingFlag;] *)
Definition shouldVerifyOnParsing (c : MlirOptMainConfig) : bool :=
  negb (disableVerifierOnParsingFlag c).

Definition shouldVerifyRoundtrip (c : MlirOptMainConfig) : bool :=
  verifyRoundtripFlag c.

Definition getReproducerFilename (c : MlirOptMainConfig) : string :=
  generateReproducerFileFlag c.

(** *** Setters: the assignment each one performs *)

(** [allowUnregisteredDialectsFlag = allow; return *this;] *)
Definition allowUnregisteredDialects (allow : bool)
  (c : MlirOptMainConfig) : MlirOptMainConfig :=
  {| allowUnregisteredDialectsFlag := allow;
     debugConfig := debugConfig c;
     diagnosticVerbosityLevelFlag := diagnosticVerbosityLevelFlag c;
     dumpPassPipelineFlag := dumpPassPipelineFlag c;
     emitBytecodeFlag := emitBytecodeFlag c;
     elideResourceDataFromBytecodeFlag := elideResourceDataFromBytecodeFlag c;
     irdlFileFlag := irdlFileFlag c;
     logActionLocationFilter := logActionLocationFilter c;
     emitBytecodeVersion := emitBytecodeVersion c;
     passPipelineCallback := passPipelineCallback c;
     listPassesFlag := listPassesFlag c;
     runReproducerFlag := runReproducerFlag c;
     showDialectsFlag := showDialectsFlag c;
     disableDiagnosticNotesFlag := disableDiagnosticNotesFlag c;
     splitInputFileFlag := splitInputFileFlag c;
     outputSplitMarkerFlag := outputSplitMarkerFlag c;
     useExplicitModuleFlag := useExplicitModuleFlag c;
     verifyDiagnosticsFlag := verifyDiagnosticsFlag c;
     verifyPassesFlag := verifyPassesFlag c;
     disableVerifierOnParsingFlag := disableVerifierOnParsingFlag c;
     verifyRoundtripFlag := verifyRoundtripFlag c;
     generateReproducerFileFlag := generateReproducerFileFlag c |}.

(** [debugConfig = std::move(config); return *this;] *)
Definition setDebugConfig (config : DebugConfig)
  (c : MlirOptMainConfig) : MlirOptMainConfig :=
  {| allowUnregisteredDialectsFlag := allowUnregisteredDialectsFlag c;
     debugConfig := config;
     diagnosticVerbosityLevelFlag := diagnosticVerbosityLevelFlag c;
     dumpPassPipelineFlag := dumpPassPipelineFlag c;
     emitBytecodeFlag := emitBytecodeFlag c;
     elideResourceDataFromBytecodeFlag := elideResourceDataFromBytecodeFlag c;
     irdlFileFlag := irdlFileFlag c;
     logActionLocationFilter := logActionLocationFilter c;
     emitBytecodeVersion := emitBytecodeVersion c;
     passPipelineCallback := passPipelineCallback c;
     listPassesFlag := listPassesFlag c;
     runReproducerFlag := runReproducerFlag c;
     showDialectsFlag := showDialectsFlag c;
     disableDiagnosticNotesFlag := disableDiagnosticNotesFlag c;
     splitInputFileFlag := splitInputFileFlag c;
     outputSplitMarkerFlag := outputSplitMarkerFlag c;
     useExplicitModuleFlag := useExplicitModuleFlag c;
     verifyDiagnosticsFlag := verifyDiagnosticsFlag c;
     verifyPassesFlag := verifyPassesFlag c;
     disableVerifierOnParsingFlag := disableVerifierOnParsingFlag c;
     verifyRoundtripFlag := verifyRoundtripFlag c;
     generateReproducerFileFlag := generateReproducerFileFlag c |}.

(** [dumpPassPipelineFlag = dump; return *this;] *)
Definition dumpPassPipeline (dump : bool)
  (c : MlirOptMainConfig) : MlirOptMainConfig :=
  {| allowUnregisteredDialectsFlag := allowUnregisteredDialectsFlag c;
     debugConfig := debugConfig c;
     diagnosticVerbosityLevelFlag := diagnosticVerbosityLevelFlag c;
     dumpPassPipelineFlag := dump;
     emitBytecodeFlag := emitBytecodeFlag c;
     elideResourceDataFromBytecodeFlag := elideResourceDataFromBytecodeFlag c;
     irdlFileFlag := irdlFileFlag c;
     logActionLocationFilter := logActionLocationFilter c;
     emitBytecodeVersion := emitBytecodeVersion c;
     passPipelineCallback := passPipelineCallback c;
     listPassesFlag := listPassesFlag c;
     runReproducerFlag := runReproducerFlag c;
     showDialectsFlag := showDialectsFlag c;
     disableDiagnosticNotesFlag := disableDiagnosticNotesFlag c;
     splitInputFileFlag := splitInputFileFlag c;
     outputSplitMarkerFlag := outputSplitMarkerFlag c;
     useExplicitModuleFlag := useExplicitModuleFlag c;
     verifyDiagnosticsFlag := verifyDiagnosticsFlag c;
     verifyPassesFlag := verifyPassesFlag c;
     disableVerifierOnParsingFlag := disableVerifierOnParsingFlag c;
     verifyRoundtripFlag := verifyRoundtripFlag c;
     generateReproducerFileFlag := generateReproducerFileFlag c |}.

(** [emitBytecodeFlag = emit; return *this;] *)
Definition emitBytecode (emit : bool)
  (c : MlirOptMainConfig) : MlirOptMainConfig :=
  {| allowUnregisteredDialectsFlag := allowUnregisteredDialectsFlag c;
     debugConfig := debugConfig c;
     diagnosticVerbosityLevelFlag := diagnosticVerbosityLevelFlag c;
     dumpPassPipelineFlag := dumpPassPipelineFlag c;
     emitBytecodeFlag := emit;
     elideResourceDataFromBytecodeFlag := elideResourceDataFromBytecodeFlag c;
     irdlFileFlag := irdlFileFlag c;
     logActionLocationFilter := logActionLocationFilter c;
     emitBytecodeVersion := emitBytecodeVersion c;
     passPipelineCallback := passPipelineCallback c;
     listPassesFlag := listPassesFlag c;
     runReproducerFlag := runReproducerFlag c;
     showDialectsFlag := showDialectsFlag c;
     disableDiagnosticNotesFlag := disableDiagnosticNotesFlag c;
     splitInputFileFlag := splitInputFileFlag c;
     outputSplitMarkerFlag := outputSplitMarkerFlag c;
     useExplicitModuleFlag := useExplicitModuleFlag c;
     verifyDiagnosticsFlag := verifyDiagnosticsFlag c;
     verifyPassesFlag := verifyPassesFlag c;
     disableVerifierOnParsingFlag := disableVerifierOnParsingFlag c;
     verifyRoundtripFlag := verifyRoundtripFlag c;
     generateReproducerFileFlag := generateReproducerFileFlag c |}.

(** [irdlFileFlag = file; return *this;] *)
Definition setIrdlFile (file : string)
  (c : MlirOptMainConfig) : MlirOptMainConfig :=
  {| allowUnregisteredDialectsFlag := allowUnregisteredDialectsFlag c;
     debugConfig := debugConfig c;
     diagnosticVerbosityLevelFlag := diagnosticVerbosityLevelFlag c;
     dumpPassPipelineFlag := dumpPassPipelineFlag c;
     emitBytecodeFlag := emitBytecodeFlag c;
     elideResourceDataFromBytecodeFlag := elideResourceDataFromBytecodeFlag c;
     irdlFileFlag := file;
     logActionLocationFilter := logActionLocationFilter c;
     emitBytecodeVersion := emitBytecodeVersion c;
     passPipelineCallback := passPipelineCallback c;
     listPassesFlag := listPassesFlag c;
     runReproducerFlag := runReproducerFlag c;
     showDialectsFlag := showDialectsFlag c;
     disableDiagnosticNotesFlag := disableDiagnosticNotesFlag c;
     splitInputFileFlag := splitInputFileFlag c;
     outputSplitMarkerFlag := outputSplitMarkerFlag c;
     useExplicitModuleFlag := useExplicitModuleFlag c;
     verifyDiagnosticsFlag := verifyDiagnosticsFlag c;
     verifyPassesFlag := verifyPassesFlag c;
     disableVerifierOnParsingFlag := disableVerifierOnParsingFlag c;
     verifyRoundtripFlag := verifyRoundtripFlag c;
     generateReproducerFileFlag := generateReproducerFileFlag c |}.

(** [emitBytecodeVersion = version; return *this;]  The argument is an
    [int64_t]; it is stored as it is and no arithmetic is done on it. *)
Definition setEmitBytecodeVersion (version : Z)
  (c : MlirOptMainConfig) : MlirOptMainConfig :=
  {| allowUnregisteredDialectsFlag := allowUnregisteredDialectsFlag c;
     debugConfig := debugConfig c;
     diagnosticVerbosityLevelFlag := diagnosticVerbosityLevelFlag c;
     dumpPassPipelineFlag := dumpPassPipelineFlag c;
     emitBytecodeFlag := emitBytecodeFlag c;
     elideResourceDataFromBytecodeFlag := elideResourceDataFromBytecodeFlag c;
     irdlFileFlag := irdlFileFlag c;
     logActionLocationFilter := logActionLocationFilter c;
     emitBytecodeVersion := Some version;
     passPipelineCallback := passPipelineCallback c;
     listPassesFlag := listPassesFlag c;
     runReproducerFlag := runReproducerFlag c;
     showDialectsFlag := showDialectsFlag c;
     disableDiagnosticNotesFlag := disableDiagnosticNotesFlag c;
     splitInputFileFlag := splitInputFileFlag c;
     outputSplitMarkerFlag := outputSplitMarkerFlag c;
     useExplicitModuleFlag := useExplicitModuleFlag c;
     verifyDiagnosticsFlag := verifyDiagnosticsFlag c;
     verifyPassesFlag := verifyPassesFlag c;
     disableVerifierOnParsingFlag := disableVerifierOnParsingFlag c;
     verifyRoundtripFlag := verifyRoundtripFlag c;
     generateReproducerFileFlag := generateReproducerFileFlag c |}.

(** [passPipelineCallback = std::move(callback); return *this;]  The
    argument is a [std::function], which may itself be empty. *)
Definition setPassPipelineSetupFn (callback : option PassPipelineCallback)
  (c : MlirOptMainConfig) : MlirOptMainConfig :=
  {| allowUnregisteredDialectsFlag := allowUnregisteredDialectsFlag c;
     debugConfig := debugConfig c;
     diagnosticVerbosityLevelFlag := diagnosticVerbosityLevelFlag c;
     dumpPassPipelineFlag := dumpPassPipelineFlag c;
     emitBytecodeFlag := emitBytecodeFlag c;
     elideResourceDataFromBytecodeFlag := elideResourceDataFromBytecodeFlag c;
     irdlFileFlag := irdlFileFlag c;
     logActionLocationFilter := logActionLocationFilter c;
     emitBytecodeVersion := emitBytecodeVersion c;
     passPipelineCallback := callback;
     listPassesFlag := listPassesFlag c;
     runReproducerFlag := runReproducerFlag c;
     showDialectsFlag := showDialectsFlag c;
     disableDiagnosticNotesFlag := disableDiagnosticNotesFlag c;
     splitInputFileFlag := splitInputFileFlag c;
     outputSplitMarkerFlag := outputSplitMarkerFlag c;
     useExplicitModuleFlag := useExplicitModuleFlag c;
     verifyDiagnosticsFlag := verifyDiagnosticsFlag c;
     verifyPassesFlag := verifyPassesFlag c;
     disableVerifierOnParsingFlag := disableVerifierOnParsingFlag c;
     verifyRoundtripFlag := verifyRoundtripFlag c;
     generateReproducerFileFlag := generateReproducerFileFlag c |}.

(** [listPassesFlag = list; return *this;] *)
Definition listPasses (list : bool)
  (c : MlirOptMainConfig) : MlirOptMainConfig :=
  {| allowUnregisteredDialectsFlag := allowUnregisteredDialectsFlag c;
     debugConfig := debugConfig c;
     diagnosticVerbosityLevelFlag := diagnosticVerbosityLevelFlag c;
     dumpPassPipelineFlag := dumpPassPipelineFlag c;
     emitBytecodeFlag := emitBytecodeFlag c;
     elideResourceDataFromBytecodeFlag := elideResourceDataFromBytecodeFlag c;
     irdlFileFlag := irdlFileFlag c;
     logActionLocationFilter := logActionLocationFilter c;
     emitBytecodeVersion := emitBytecodeVersion c;
     passPipelineCallback := passPipelineCallback c;
     listPassesFlag := list;
     runReproducerFlag := runReproducerFlag c;
     showDialectsFlag := showDialectsFlag c;
     disableDiagnosticNotesFlag := disableDiagnosticNotesFlag c;
     splitInputFileFlag := splitInputFileFlag c;
     outputSplitMarkerFlag := outputSplitMarkerFlag c;
     useExplicitModuleFlag := useExplicitModuleFlag c;
     verifyDiagnosticsFlag := verifyDiagnosticsFlag c;
     verifyPassesFlag := verifyPassesFlag c;
     disableVerifierOnParsingFlag := disableVerifierOnParsingFlag c;
     verifyRoundtripFlag := verifyRoundtripFlag c;
     generateReproducerFileFlag := generateReproducerFileFlag c |}.

(** [runReproducerFlag = enableReproducer; return *this;] *)
Definition runReproducer (enableReproducer : bool)
  (c : MlirOptMainConfig) : MlirOptMainConfig :=
  {| allowUnregisteredDialectsFlag := allowUnregisteredDialectsFlag c;
     debugConfig := debugConfig c;
     diagnosticVerbosityLevelFlag := diagnosticVerbosityLevelFlag c;
     dumpPassPipelineFlag := dumpPassPipelineFlag c;
     emitBytecodeFlag := emitBytecodeFlag c;
     elideResourceDataFromBytecodeFlag := elideResourceDataFromBytecodeFlag c;
     irdlFileFlag := irdlFileFlag c;
     logActionLocationFilter := logActionLocationFilter c;
     emitBytecodeVersion := emitBytecodeVersion c;
     passPipelineCallback := passPipelineCallback c;
     listPassesFlag := listPassesFlag c;
     runReproducerFlag := enableReproducer;
     showDialectsFlag := showDialectsFlag c;
     disableDiagnosticNotesFlag := disableDiagnosticNotesFlag c;
     splitInputFileFlag := splitInputFileFlag c;
     outputSplitMarkerFlag := outputSplitMarkerFlag c;
     useExplicitModuleFlag := useExplicitModuleFlag c;
     verifyDiagnosticsFlag := verifyDiagnosticsFlag c;
     verifyPassesFlag := verifyPassesFlag c;
     disableVerifierOnParsingFlag := disableVerifierOnParsingFlag c;
     verifyRoundtripFlag := verifyRoundtripFlag c;
     generateReproducerFileFlag := generateReproducerFileFlag c |}.

(** [showDialectsFlag = show; return *this;] *)
Definition showDialects (show : bool)
  (c : MlirOptMainConfig) : MlirOptMainConfig :=
  {| allowUnregisteredDialectsFlag := allowUnregisteredDialectsFlag c;
     debugConfig := debugConfig c;
     diagnosticVerbosityLevelFlag := diagnosticVerbosityLevelFlag c;
     dumpPassPipelineFlag := dumpPassPipelineFlag c;
     emitBytecodeFlag := emitBytecodeFlag c;
     elideResourceDataFromBytecodeFlag := elideResourceDataFromBytecodeFlag c;
     irdlFileFlag := irdlFileFlag c;
     logActionLocationFilter := logActionLocationFilter c;
     emitBytecodeVersion := emitBytecodeVersion c;
     passPipelineCallback := passPipelineCallback c;
     listPassesFlag := listPassesFlag c;
     runReproducerFlag := runReproducerFlag c;
     showDialectsFlag := show;
     disableDiagnosticNotesFlag := disableDiagnosticNotesFlag c;
     splitInputFileFlag := splitInputFileFlag c;
     outputSplitMarkerFlag := outputSplitMarkerFlag c;
     useExplicitModuleFlag := useExplicitModuleFlag c;
     verifyDiagnosticsFlag := verifyDiagnosticsFlag c;
     verifyPassesFlag := verifyPassesFlag c;
     disableVerifierOnParsingFlag := disableVerifierOnParsingFlag c;
     verifyRoundtripFlag := verifyRoundtripFlag c;
     generateReproducerFileFlag := generateReproducerFileFlag c |}.

(** [splitInputFileFlag = std::move(splitMarker); return *this;] *)
Definition splitInputFile (splitMarker : string)
  (c : MlirOptMainConfig) : MlirOptMainConfig :=
  {| allowUnregisteredDialectsFlag := allowUnregisteredDialectsFlag c;
     debugConfig := debugConfig c;
     diagnosticVerbosityLevelFlag := diagnosticVerbosityLevelFlag c;
     dumpPassPipelineFlag := dumpPassPipelineFlag c;
     emitBytecodeFlag := emitBytecodeFlag c;
     elideResourceDataFromBytecodeFlag := elideResourceDataFromBytecodeFlag c;
     irdlFileFlag := irdlFileFlag c;
     logActionLocationFilter := logActionLocationFilter c;
     emitBytecodeVersion := emitBytecodeVersion c;
     passPipelineCallback := passPipelineCallback c;
     listPassesFlag := listPassesFlag c;
     runReproducerFlag := runReproducerFlag c;
     showDialectsFlag := showDialectsFlag c;
     disableDiagnosticNotesFlag := disableDiagnosticNotesFlag c;
     splitInputFileFlag := splitMarker;
     outputSplitMarkerFlag := outputSplitMarkerFlag c;
     useExplicitModuleFlag := useExplicitModuleFlag c;
     verifyDiagnosticsFlag := verifyDiagnosticsFlag c;
     verifyPassesFlag := verifyPassesFlag c;
     disableVerifierOnParsingFlag := disableVerifierOnParsingFlag c;
     verifyRoundtripFlag := verifyRoundtripFlag c;
     generateReproducerFileFlag := generateReproducerFileFlag c |}.

(** [outputSplitMarkerFlag = std::move(splitMarker); return *this;] *)
Definition outputSplitMarker_set (splitMarker : string)
  (c : MlirOptMainConfig) : MlirOptMainConfig :=
  {| allowUnregisteredDialectsFlag := allowUnregisteredDialectsFlag c;
     debugConfig := debugConfig c;
     diagnosticVerbosityLevelFlag := diagnosticVerbosityLevelFlag c;
     dumpPassPipelineFlag := dumpPassPipelineFlag c;
     emitBytecodeFlag := emitBytecodeFlag c;
     elideResourceDataFromBytecodeFlag := elideResourceDataFromBytecodeFlag c;
     irdlFileFlag := irdlFileFlag c;
     logActionLocationFilter := logActionLocationFilter c;
     emitBytecodeVersion := emitBytecodeVersion c;
     passPipelineCallback := passPipelineCallback c;
     listPassesFlag := listPassesFlag c;
     runReproducerFlag := runReproducerFlag c;
     showDialectsFlag := showDialectsFlag c;
     disableDiagnosticNotesFlag := disableDiagnosticNotesFlag c;
     splitInputFileFlag := splitInputFileFlag c;
     outputSplitMarkerFlag := splitMarker;
     useExplicitModuleFlag := useExplicitModuleFlag c;
     verifyDiagnosticsFlag := verifyDiagnosticsFlag c;
     verifyPassesFlag := verifyPassesFlag c;
     disableVerifierOnParsingFlag := disableVerifierOnParsingFlag c;
     verifyRoundtripFlag := verifyRoundtripFlag c;
     generateReproducerFileFlag := generateReproducerFileFlag c |}.

(** [useExplicitModuleFlag = useExplicitModule; return *this;] *)
Definition useExplicitModule (useExplicit : bool)
  (c : MlirOptMainConfig) : MlirOptMainConfig :=
  {| allowUnregisteredDialectsFlag := allowUnregisteredDialectsFlag c;
     debugConfig := debugConfig c;
     diagnosticVerbosityLevelFlag := diagnosticVerbosityLevelFlag c;
     dumpPassPipelineFlag := dumpPassPipelineFlag c;
     emitBytecodeFlag := emitBytecodeFlag c;
     elideResourceDataFromBytecodeFlag := elideResourceDataFromBytecodeFlag c;
     irdlFileFlag := irdlFileFlag c;
     logActionLocationFilter := logActionLocationFilter c;
     emitBytecodeVersion := emitBytecodeVersion c;
     passPipelineCallback := passPipelineCallback c;
     listPassesFlag := listPassesFlag c;
     runReproducerFlag := runReproducerFlag c;
     showDialectsFlag := showDialectsFlag c;
     disableDiagnosticNotesFlag := disableDiagnosticNotesFlag c;
     splitInputFileFlag := splitInputFileFlag c;
     outputSplitMarkerFlag := outputSplitMarkerFlag c;
     useExplicitModuleFlag := useExplicit;
     verifyDiagnosticsFlag := verifyDiagnosticsFlag c;
     verifyPassesFlag := verifyPassesFlag c;
     disableVerifierOnParsingFlag := disableVerifierOnParsingFlag c;
     verifyRoundtripFlag := verifyRoundtripFlag c;
     generateReproducerFileFlag := generateReproducerFileFlag c |}.

(** [verifyDiagnosticsFlag = verify; return *this;] *)
Definition verifyDiagnostics (verify : SourceMgrDiagnosticVerifierHandler.Level)
  (c : MlirOptMainConfig) : MlirOptMainConfig :=
  {| allowUnregisteredDialectsFlag := allowUnregisteredDialectsFlag c;
     debugConfig := debugConfig c;
     diagnosticVerbosityLevelFlag := diagnosticVerbosityLevelFlag c;
     dumpPassPipelineFlag := dumpPassPipelineFlag c;
     emitBytecodeFlag := emitBytecodeFlag c;
     elideResourceDataFromBytecodeFlag := elideResourceDataFromBytecodeFlag c;
     irdlFileFlag := irdlFileFlag c;
     logActionLocationFilter := logActionLocationFilter c;
     emitBytecodeVersion := emitBytecodeVersion c;
     passPipelineCallback := passPipelineCallback c;
     listPassesFlag := listPassesFlag c;
     runReproducerFlag := runReproducerFlag c;
     showDialectsFlag := showDialectsFlag c;
     disableDiagnosticNotesFlag := disableDiagnosticNotesFlag c;
     splitInputFileFlag := splitInputFileFlag c;
     outputSplitMarkerFlag := outputSplitMarkerFlag c;
     useExplicitModuleFlag := useExplicitModuleFlag c;
     verifyDiagnosticsFlag := verify;
     verifyPassesFlag := verifyPassesFlag c;
     disableVerifierOnParsingFlag := disableVerifierOnParsingFlag c;
     verifyRoundtripFlag := verifyRoundtripFlag c;
     generateReproducerFileFlag := generateReproducerFileFlag c |}.

(** [verifyPassesFlag = verify; return *this;] *)
Definition verifyPasses (verify : bool)
  (c : MlirOptMainConfig) : MlirOptMainConfig :=
  {| allowUnregisteredDialectsFlag := allowUnregisteredDialectsFlag c;
     debugConfig := debugConfig c;
     diagnosticVerbosityLevelFlag := diagnosticVerbosityLevelFlag c;
     dumpPassPipelineFlag := dumpPassPipelineFlag c;
     emitBytecodeFlag := emitBytecodeFlag c;
     elideResourceDataFromBytecodeFlag := elideResourceDataFromBytecodeFlag c;
     irdlFileFlag := irdlFileFlag c;
     logActionLocationFilter := logActionLocationFilter c;
     emitBytecodeVersion := emitBytecodeVersion c;
     passPipelineCallback := passPipelineCallback c;
     listPassesFlag := listPassesFlag c;
     runReproducerFlag := runReproducerFlag c;
     showDialectsFlag := showDialectsFlag c;
     disableDiagnosticNotesFlag := disableDiagnosticNotesFlag c;
     splitInputFileFlag := splitInputFileFlag c;
     outputSplitMarkerFlag := outputSplitMarkerFlag c;
     useExplicitModuleFlag := useExplicitModuleFlag c;
     verifyDiagnosticsFlag := verifyDiagnosticsFlag c;
     verifyPassesFlag := verify;
     disableVerifierOnParsingFlag := disableVerifierOnParsingFlag c;
     verifyRoundtripFlag := verifyRoundtripFlag c;
     generateReproducerFileFlag := generateReproducerFileFlag c |}.

(** [disableVerifierOnParsingFlag = !verify; return *this;] *)
Definition verifyOnParsing (verify : bool)
  (c : MlirOptMainConfig) : MlirOptMainConfig :=
  {| allowUnregisteredDialectsFlag := allowUnregisteredDialectsFlag c;
     debugConfig := debugConfig c;
     diagnosticVerbosityLevelFlag := diagnosticVerbosityLevelFlag c;
     dumpPassPipelineFlag := dumpPassPipelineFlag c;
     emitBytecodeFlag := emitBytecodeFlag c;
     elideResourceDataFromBytecodeFlag := elideResourceDataFromBytecodeFlag c;
     irdlFileFlag := irdlFileFlag c;
     logActionLocationFilter := logActionLocationFilter c;
     emitBytecodeVersion := emitBytecodeVersion c;
     passPipelineCallback := passPipelineCallback c;
     listPassesFlag := listPassesFlag c;
     runReproducerFlag := runReproducerFlag c;
     showDialectsFlag := showDialectsFlag c;
     disableDiagnosticNotesFlag := disableDiagnosticNotesFlag c;
     splitInputFileFlag := splitInputFileFlag c;
     outputSplitMarkerFlag := outputSplitMarkerFlag c;
     useExplicitModuleFlag := useExplicitModuleFlag c;
     verifyDiagnosticsFlag := verifyDiagnosticsFlag c;
     verifyPassesFlag := verifyPassesFlag c;
     disableVerifierOnParsingFlag := negb verify;
     verifyRoundtripFlag := verifyRoundtripFlag c;
     generateReproducerFileFlag := generateReproducerFileFlag c |}.

(** [verifyRoundtripFlag = verify; return *this;] *)
Definition verifyRoundtrip (verify : bool)
  (c : MlirOptMainConfig) : MlirOptMainConfig :=
  {| allowUnregisteredDialectsFlag := allowUnregisteredDialectsFlag c;
     debugConfig := debugConfig c;
     diagnosticVerbosityLevelFlag := diagnosticVerbosityLevelFlag c;
     dumpPassPipelineFlag := dumpPassPipelineFlag c;
     emitBytecodeFlag := emitBytecodeFlag c;
     elideResourceDataFromBytecodeFlag := elideResourceDataFromBytecodeFlag c;
     irdlFileFlag := irdlFileFlag c;
     logActionLocationFilter := logActionLocationFilter c;
     emitBytecodeVersion := emitBytecodeVersion c;
     passPipelineCallback := passPipelineCallback c;
     listPassesFlag := listPassesFlag c;
     runReproducerFlag := runReproducerFlag c;
     showDialectsFlag := showDialectsFlag c;
     disableDiagnosticNotesFlag := disableDiagnosticNotesFlag c;
     splitInputFileFlag := splitInputFileFlag c;
     outputSplitMarkerFlag := outputSplitMarkerFlag c;
     useExplicitModuleFlag := useExplicitModuleFlag c;
     verifyDiagnosticsFlag := verifyDiagnosticsFlag c;
     verifyPassesFlag := verifyPassesFlag c;
     disableVerifierOnParsingFlag := disableVerifierOnParsingFlag c;
     verifyRoundtripFlag := verify;
     generateReproducerFileFlag := generateReproducerFileFlag c |}.

(** The calls [splitInputFile()] and [outputSplitMarker()] that leave the
    argument to its default, [kDefaultSplitMarker]. *)
Definition splitInputFile_default (c : MlirOptMainConfig)
  : MlirOptMainConfig :=
  splitInputFile kDefaultSplitMarker c.

Definition outputSplitMarker_set_default (c : MlirOptMainConfig)
  : MlirOptMainConfig :=
  outputSplitMarker_set kDefaultSplitMarker c.

(** *** Setters: the reference each one returns *)

(** A fluent member function called on the object [this] refers to: the
    object in the store is assigned to, every other object is left alone,
    and the call returns [*this], the reference it was called on.  A call
    through a reference to no object has no result. *)
Definition fluent (assignment : MlirOptMainConfig -> MlirOptMainConfig)
  (this : ref) (objects : gmap ref MlirOptMainConfig)
  : option (ref * gmap ref MlirOptMainConfig) :=
  match objects !! this with
  | Some c => Some (this, <[this := assignment c]> objects)
  | None => None
  end.

(** A call of one of the setters the header defines, with its argument. *)
Inductive SetterCall : Type :=
| Call_allowUnregisteredDialects (allow : bool)
| Call_setDebugConfig (config : DebugConfig)
| Call_dumpPassPipeline (dump : bool)
| Call_emitBytecode (emit : bool)
| Call_setIrdlFile (file : string)
| Call_setEmitBytecodeVersion (version : Z)
| Call_setPassPipelineSetupFn (callback : option PassPipelineCallback)
| Call_listPasses (list : bool)
| Call_runReproducer (enableReproducer : bool)
| Call_showDialects (show : bool)
| Call_splitInputFile (splitMarker : string)
| Call_outputSplitMarker (splitMarker : string)
| Call_useExplicitModule (useExplicit : bool)
| Call_verifyDiagnostics (verify : SourceMgrDiagnosticVerifierHandler.Level)
| Call_verifyPasses (verify : bool)
| Call_verifyOnParsing (verify : bool)
| Call_verifyRoundtrip (verify : bool).

Definition assign (s : SetterCall) : MlirOptMainConfig -> MlirOptMainConfig :=
  match s with
  | Call_allowUnregisteredDialects allow => allowUnregisteredDialects allow
  | Call_setDebugConfig config => setDebugConfig config
  | Call_dumpPassPipeline dump => dumpPassPipeline dump
  | Call_emitBytecode emit => emitBytecode emit
  | Call_setIrdlFile file => setIrdlFile file
  | Call_setEmitBytecodeVersion version => setEmitBytecodeVersion version
  | Call_setPassPipelineSetupFn callback => setPassPipelineSetupFn callback
  | Call_listPasses list => listPasses list
  | Call_runReproducer enableReproducer => runReproducer enableReproducer
  | Call_showDialects show => showDialects show
  | Call_splitInputFile splitMarker => splitInputFile splitMarker
  | Call_outputSplitMarker splitMarker => outputSplitMarker_set splitMarker
  | Call_useExplicitModule useExplicit => useExplicitModule useExplicit
  | Call_verifyDiagnostics verify => verifyDiagnostics verify
  | Call_verifyPasses verify => verifyPasses verify
  | Call_verifyOnParsing verify => verifyOnParsing verify
  | Call_verifyRoundtrip verify => verifyRoundtrip verify
  end.

(** The setter call as the program makes it: [this->setter(argument)]. *)
Definition invoke (s : SetterCall) (this : ref)
  (objects : gmap ref MlirOptMainConfig)
  : option (ref * gmap ref MlirOptMainConfig) :=
  fluent (assign s) this objects.

(** The options, one per data member. *)
Inductive OptionName : Type :=
| Opt_allowUnregisteredDialects
| Opt_debugConfig
| Opt_diagnosticVerbosityLevel
| Opt_dumpPassPipeline
| Opt_emitBytecode
| Opt_elideResourceDataFromBytecode
| Opt_irdlFile
| Opt_logActionLocationFilter
| Opt_emitBytecodeVersion
| Opt_passPipelineCallback
| Opt_listPasses
| Opt_runReproducer
| Opt_showDialects
| Opt_disableDiagnosticNotes
| Opt_splitInputFile
| Opt_outputSplitMarker
| Opt_useExplicitModule
| Opt_verifyDiagnostics
| Opt_verifyPasses
| Opt_disableVerifierOnParsing
| Opt_verifyRoundtrip
| Opt_generateReproducerFile.

(** The option a setter names: the member its body assigns. *)
Definition named (s : SetterCall) : OptionName :=
  match s with
  | Call_allowUnregisteredDialects _ => Opt_allowUnregisteredDialects
  | Call_setDebugConfig _ => Opt_debugConfig
  | Call_dumpPassPipeline _ => Opt_dumpPassPipeline
  | Call_emitBytecode _ => Opt_emitBytecode
  | Call_setIrdlFile _ => Opt_irdlFile
  | Call_setEmitBytecodeVersion _ => Opt_emitBytecodeVersion
  | Call_setPassPipelineSetupFn _ => Opt_passPipelineCallback
  | Call_listPasses _ => Opt_listPasses
  | Call_runReproducer _ => Opt_runReproducer
  | Call_showDialects _ => Opt_showDialects
  | Call_splitInputFile _ => Opt_splitInputFile
  | Call_outputSplitMarker _ => Opt_outputSplitMarker
  | Call_useExplicitModule _ => Opt_useExplicitModule
  | Call_verifyDiagnostics _ => Opt_verifyDiagnostics
  | Call_verifyPasses _ => Opt_verifyPasses
  | Call_verifyOnParsing _ => Opt_disableVerifierOnParsing
  | Call_verifyRoundtrip _ => Opt_verifyRoundtrip
  end.

(** The getters the header defines. *)
Inductive Getter : Type :=
| Get_shouldAllowUnregisteredDialects
| Get_getDebugConfig
| Get_getDiagnosticVerbosityLevel
| Get_shouldDumpPassPipeline
| Get_shouldEmitBytecode
| Get_shouldElideResourceDataFromBytecode
| Get_shouldShowNotes
| Get_getIrdlFile
| Get_bytecodeVersionToEmit
| Get_setupPassPipeline
| Get_shouldListPasses
| Get_shouldRunReproducer
| Get_shouldShowDialects
| Get_inputSplitMarker
| Get_outputSplitMarker
| Get_shouldUseExplicitModule
| Get_shouldVerifyDiagnostics
| Get_verifyDiagnosticsLevel
| Get_shouldVerifyPasses
| Get_shouldVerifyOnParsing
| Get_shouldVerifyRoundtrip
| Get_getReproducerFilename.

(** The option a getter reads: the member its body returns. *)
Definition read (g : Getter) : OptionName :=
  match g with
  | Get_shouldAllowUnregisteredDialects => Opt_allowUnregisteredDialects
  | Get_getDebugConfig => Opt_debugConfig
  | Get_getDiagnosticVerbosityLevel => Opt_diagnosticVerbosityLevel
  | Get_shouldDumpPassPipeline => Opt_dumpPassPipeline
  | Get_shouldEmitBytecode => Opt_emitBytecode
  | Get_shouldElideResourceDataFromBytecode =>
      Opt_elideResourceDataFromBytecode
  | Get_shouldShowNotes => Opt_disableDiagnosticNotes
  | Get_getIrdlFile => Opt_irdlFile
  | Get_bytecodeVersionToEmit => Opt_emitBytecodeVersion
  | Get_setupPassPipeline => Opt_passPipelineCallback
  | Get_shouldListPasses => Opt_listPasses
  | Get_shouldRunReproducer => Opt_runReproducer
  | Get_shouldShowDialects => Opt_showDialects
  | Get_inputSplitMarker => Opt_splitInputFile
  | Get_outputSplitMarker => Opt_outputSplitMarker
  | Get_shouldUseExplicitModule => Opt_useExplicitModule
  | Get_shouldVerifyDiagnostics => Opt_verifyDiagnostics
  | Get_verifyDiagnosticsLevel => Opt_verifyDiagnostics
  | Get_shouldVerifyPasses => Opt_verifyPasses
  | Get_shouldVerifyOnParsing => Opt_disableVerifierOnParsing
  | Get_shouldVerifyRoundtrip => Opt_verifyRoundtrip
  | Get_getReproducerFilename => Opt_generateReproducerFile
  end.

(** What a getter returns; [setupPassPipeline] is observed as the function
    of the pass manager it is. *)
Definition Returned (g : Getter) : Type :=
  match g with
  | Get_getDebugConfig => DebugConfig
  | Get_getDiagnosticVerbosityLevel => VerbosityLevel
  | Get_getIrdlFile | Get_inputSplitMarker | Get_outputSplitMarker
  | Get_getReproducerFilename => string
  | Get_bytecodeVersionToEmit => option Z
  | Get_setupPassPipeline => PassManager -> LogicalResult * PassManager
  | Get_verifyDiagnosticsLevel => SourceMgrDiagnosticVerifierHandler.Level
  | _ => bool
  end.

Definition observe (g : Getter) (c : MlirOptMainConfig) : Returned g :=
  match g with
  | Get_shouldAllowUnregisteredDialects => shouldAllowUnregisteredDialects c
  | Get_getDebugConfig => getDebugConfig c
  | Get_getDiagnosticVerbosityLevel => getDiagnosticVerbosityLevel c
  | Get_shouldDumpPassPipeline => shouldDumpPassPipeline c
  | Get_shouldEmitBytecode => shouldEmitBytecode c
  | Get_shouldElideResourceDataFromBytecode =>
      shouldElideResourceDataFromBytecode c
  | Get_shouldShowNotes => shouldShowNotes c
  | Get_getIrdlFile => getIrdlFile c
  | Get_bytecodeVersionToEmit => bytecodeVersionToEmit c
  | Get_setupPassPipeline => setupPassPipeline c
  | Get_shouldListPasses => shouldListPasses c
  | Get_shouldRunReproducer => shouldRunReproducer c
  | Get_shouldShowDialects => shouldShowDialects c
  | Get_inputSplitMarker => inputSplitMarker c
  | Get_outputSplitMarker => outputSplitMarker c
  | Get_shouldUseExplicitModule => shouldUseExplicitModule c
  | Get_shouldVerifyDiagnostics => shouldVerifyDiagnostics c
  | Get_verifyDiagnosticsLevel => verifyDiagnosticsLevel c
  | Get_shouldVerifyPasses => shouldVerifyPasses c
  | Get_shouldVerifyOnParsing => shouldVerifyOnParsing c
  | Get_shouldVerifyRoundtrip => shouldVerifyRoundtrip c
  | Get_getReproducerFilename => getReproducerFilename c
  end.

(** *** The two sources of the pass pipeline *)

(** Modelled from the spec: [PassPipelineCLParser] is only forward-declared
    in the header.  The spec calls it the pre-parsed textual pipeline
    description from which the pipeline is populated; populating a pass
    manager from it is all that is modelled. *)
Record PassPipelineCLParser : Type := MkPassPipelineCLParser {
  addToPipeline : PassManager -> LogicalResult * PassManager
}.

(** Modelled from the spec: [setPassPipelineParser] is declared in the header
    and defined outside it.  The spec has the callback and the parser as
    mutually exclusive sources, where setting one clears the other.  The
    class has a single member for the source of the pipeline,
    [passPipelineCallback], so installing the parser stores there the
    callback that populates the pass manager from the parser, in place of
    whatever was installed before. *)
Definition setPassPipelineParser (parser : PassPipelineCLParser)
  (c : MlirOptMainConfig) : MlirOptMainConfig :=
  setPassPipelineSetupFn (Some (addToPipeline parser)) c.

(** One call installing a source: [setPassPipelineSetupFn(callback)] or
    [setPassPipelineParser(parser)]. *)
Inductive PipelineSource : Type :=
| FromCallback (callback : option PassPipelineCallback)
| FromParser (parser : PassPipelineCLParser).

Definition install (c : MlirOptMainConfig) (s : PipelineSource)
  : MlirOptMainConfig :=
  match s with
  | FromCallback callback => setPassPipelineSetupFn callback c
  | FromParser parser => setPassPipelineParser parser c
  end.

(** What the pass manager is populated with when the source is the active
    one. *)
Definition populateFrom (s : PipelineSource) (pm : PassManager)
  : LogicalResult * PassManager :=
  match s with
  | FromCallback (Some callback) => callback pm
  | FromCallback None => (success, pm)
  | FromParser parser => addToPipeline parser pm
  end.

(** *** Setter calls in sequence *)

(** The setter calls of a list made one after the other, first to last, on
    one configuration object. *)
Definition assign_all (calls : list SetterCall) (c : MlirOptMainConfig)
  : MlirOptMainConfig :=
  fold_left (fun c' s => assign s c') calls c.

(** The chained call [this->first(x).second(y)...] the fluent interface is
    made for: each setter is called through the reference the call before it
    returned.  With no call in the chain the reference is used as it is. *)
Fixpoint invoke_chain (calls : list SetterCall) (this : ref)
  (objects : gmap ref MlirOptMainConfig)
  : option (ref * gmap ref MlirOptMainConfig) :=
  match calls with
  | [] => Some (this, objects)
  | s :: rest =>
      match invoke s this objects with
      | Some (returned, objects') => invoke_chain rest returned objects'
      | None => None
      end
  end.

(** ** Properties *)

(** *** Default-constructed configuration *)

(** C1: evaluated on the code, the default-constructed configuration has
    [shouldShowNotes() = false]: [disableDiagnosticNotesFlag] is initialised
    to [true] and the getter returns its negation, so note-severity
    diagnostics are left out by default. *)
Theorem default_shouldShowNotes :
  shouldShowNotes defaultConfig = false.
Proof. reflexivity. Qed.

(** C2: for the default-constructed configuration, [shouldVerifyPasses()]
    and [shouldVerifyOnParsing()] return true and [shouldVerifyRoundtrip()]
    returns false. *)
Theorem default_verifier_switches :
  shouldVerifyPasses defaultConfig = true /\
  shouldVerifyOnParsing defaultConfig = true /\
  shouldVerifyRoundtrip defaultConfig = false.
Proof. repeat split. Qed.

(** C6: for the default-constructed configuration, [inputSplitMarker()] and
    [outputSplitMarker()] return the empty string and
    [bytecodeVersionToEmit()] returns an absent optional. *)
Theorem default_markers_and_bytecode_version :
  inputSplitMarker defaultConfig = "" /\
  outputSplitMarker defaultConfig = "" /\
  bytecodeVersionToEmit defaultConfig = None.
Proof.
  unfold inputSplitMarker, outputSplitMarker, bytecodeVersionToEmit.
  cbn [defaultConfig splitInputFileFlag outputSplitMarkerFlag
       emitBytecodeVersion].
  auto.
Qed.

(** C10: for the default-constructed configuration,
    [getDiagnosticVerbosityLevel()] returns [ErrorsWarningsAndRemarks], and
    no level of the enumeration has a greater value: it is the most verbose
    one. *)
Theorem default_verbosity_is_most_verbose :
  getDiagnosticVerbosityLevel defaultConfig = ErrorsWarningsAndRemarks /\
  forall l : VerbosityLevel,
    VerbosityLevel_value l
    <= VerbosityLevel_value (getDiagnosticVerbosityLevel defaultConfig).
Proof.
  split; [reflexivity|].
  intros l. change (VerbosityLevel_value l <= 2).
  destruct l; cbn [VerbosityLevel_value]; lia.
Qed.

(** *** Diagnostic verification *)

Lemma shouldVerifyDiagnostics_true (c : MlirOptMainConfig) :
  shouldVerifyDiagnostics c = true <->
  verifyDiagnosticsFlag c <> SourceMgrDiagnosticVerifierHandler.None.
Proof.
  unfold shouldVerifyDiagnostics.
  rewrite negb_true_iff, bool_decide_eq_false. reflexivity.
Qed.

(** C3: for every configuration, [shouldVerifyDiagnostics()] returns true if
    and only if [verifyDiagnosticsLevel()] is not the level [None]; the
    default-constructed configuration has diagnostic verification
    disabled. *)
Theorem shouldVerifyDiagnostics_iff_level_not_None (c : MlirOptMainConfig) :
  (shouldVerifyDiagnostics c = true <->
   verifyDiagnosticsLevel c <> SourceMgrDiagnosticVerifierHandler.None) /\
  shouldVerifyDiagnostics defaultConfig = false.
Proof.
  split.
  - apply shouldVerifyDiagnostics_true.
  - reflexivity.
Qed.

(** *** Exit code *)

(** C4: for every [LogicalResult r], [asMainReturnCode r] is [EXIT_SUCCESS],
    which is 0, if [r] succeeded, and [EXIT_FAILURE], which is not 0, if [r]
    failed. *)
Theorem asMainReturnCode_success_zero_failure_nonzero (r : LogicalResult) :
  (succeeded r = true ->
   asMainReturnCode r = EXIT_SUCCESS /\ asMainReturnCode r = 0) /\
  (failed r = true ->
   asMainReturnCode r = EXIT_FAILURE /\ asMainReturnCode r <> 0).
Proof.
  unfold asMainReturnCode, failed, succeeded.
  destruct r as [[|]]; cbn [isSuccess negb]; split; intros H;
    try discriminate H; split; try reflexivity.
  unfold EXIT_FAILURE. lia.
Qed.

(** *** Verification on parsing *)

(** C8: for every configuration [c] and boolean [v],
    [c.verifyOnParsing(v).shouldVerifyOnParsing()] is [v], although the
    member that stores the option, [disableVerifierOnParsingFlag], holds its
    negation. *)
Theorem verifyOnParsing_roundtrip (c : MlirOptMainConfig) (v : bool) :
  shouldVerifyOnParsing (verifyOnParsing v c) = v /\
  disableVerifierOnParsingFlag (verifyOnParsing v c) = negb v.
Proof.
  unfold shouldVerifyOnParsing.
  cbn [verifyOnParsing disableVerifierOnParsingFlag].
  split; [apply negb_involutive | reflexivity].
Qed.

(** *** Populating the pass manager *)

(** C9: on a configuration with no callback installed,
    [setupPassPipeline(pm)] returns success and leaves the pass manager as it
    was; with a callback installed it returns exactly what the callback
    returns on [pm].  The default-constructed configuration is in the first
    case and a configuration after [setPassPipelineSetupFn] of a non-empty
    callback in the second. *)
Theorem setupPassPipeline_runs_installed_callback
  (c : MlirOptMainConfig) (pm : PassManager) :
  (passPipelineCallback c = None -> setupPassPipeline c pm = (success, pm)) /\
  (forall callback : PassPipelineCallback,
     passPipelineCallback c = Some callback ->
     setupPassPipeline c pm = callback pm) /\
  setupPassPipeline defaultConfig pm = (success, pm) /\
  (forall callback : PassPipelineCallback,
     setupPassPipeline (setPassPipelineSetupFn (Some callback) c) pm
     = callback pm).
Proof.
  unfold setupPassPipeline. repeat split.
  - intros ->. reflexivity.
  - intros callback ->. reflexivity.
Qed.

Lemma install_overwrites (c : MlirOptMainConfig) (s1 s2 : PipelineSource) :
  install (install c s1) s2 = install c s2.
Proof. destruct s1, s2; reflexivity. Qed.

Lemma install_all_last (earlier : list PipelineSource) :
  forall (c : MlirOptMainConfig) (last : PipelineSource),
    fold_left install (earlier ++ [last]) c = install c last.
Proof.
  induction earlier as [|s earlier IH]; intros c last.
  - reflexivity.
  - cbn [app fold_left]. rewrite IH. apply install_overwrites.
Qed.

Lemma setupPassPipeline_install (c : MlirOptMainConfig)
  (s : PipelineSource) (pm : PassManager) :
  setupPassPipeline (install c s) pm = populateFrom s pm.
Proof. destruct s as [[callback|]|parser]; reflexivity. Qed.

(** C5: the two pipeline sources are mutually exclusive.  After any sequence
    of calls to [setPassPipelineSetupFn] and [setPassPipelineParser], the
    configuration is the one a single call, the last of them, produces from
    the initial configuration: the sources installed earlier are cleared,
    and [setupPassPipeline] populates the pass manager from the last
    installed source and from nothing else. *)
Theorem pipeline_source_last_installed_only
  (c : MlirOptMainConfig) (earlier : list PipelineSource)
  (last : PipelineSource) :
  let c' := fold_left install (earlier ++ [last]) c in
  c' = install c last /\
  forall pm : PassManager, setupPassPipeline c' pm = populateFrom last pm.
Proof.
  cbv zeta. rewrite install_all_last. split; [reflexivity|].
  intros pm. apply setupPassPipeline_install.
Qed.

(** *** Setters change the option they name, and only that one *)

Lemma assign_frame (s : SetterCall) (g : Getter) (c : MlirOptMainConfig) :
  read g <> named s -> observe g (assign s c) = observe g c.
Proof.
  intros Hother.
  destruct s, g; try reflexivity; exfalso; apply Hother; reflexivity.
Qed.

Lemma fluent_returns_this (f : MlirOptMainConfig -> MlirOptMainConfig)
  (this : ref) (objects : gmap ref MlirOptMainConfig)
  (c : MlirOptMainConfig) :
  objects !! this = Some c ->
  fluent f this objects = Some (this, <[this := f c]> objects).
Proof. intros Hthis. unfold fluent. rewrite Hthis. reflexivity. Qed.

(** C7: every fluent setter returns the configuration object it was called
    on and changes only the option it names.  For a setter call made
    through a reference [this] to a configuration [c]: the call returns
    [this]; afterwards [this] refers to the assigned-to configuration, on
    which every getter of another option returns what it returned on [c];
    and every other object is as it was. *)
Theorem setter_returns_this_and_frames_other_options
  (s : SetterCall) (this : ref) (objects : gmap ref MlirOptMainConfig)
  (c : MlirOptMainConfig) :
  objects !! this = Some c ->
  exists (objects' : gmap ref MlirOptMainConfig) (c' : MlirOptMainConfig),
    invoke s this objects = Some (this, objects') /\
    objects' !! this = Some c' /\
    (forall g : Getter, read g <> named s -> observe g c' = observe g c) /\
    (forall other : ref, other <> this ->
       objects' !! other = objects !! other).
Proof.
  intros Hthis.
  exists (<[this := assign s c]> objects), (assign s c).
  split; [|split; [|split]].
  - apply fluent_returns_this, Hthis.
  - apply lookup_insert_eq.
  - intros g. apply assign_frame.
  - intros other Hother. apply lookup_insert_ne. congruence.
Qed.

(** *** How setter calls compose *)

Lemma assign_determined (s : SetterCall) (g : Getter)
  (c1 c2 : MlirOptMainConfig) :
  read g = named s -> observe g (assign s c1) = observe g (assign s c2).
Proof.
  intros Hsame.
  destruct s, g; cbn in Hsame; try discriminate Hsame; reflexivity.
Qed.

Lemma assign_all_cons (s : SetterCall) (calls : list SetterCall)
  (c : MlirOptMainConfig) :
  assign_all (s :: calls) c = assign_all calls (assign s c).
Proof. reflexivity. Qed.

Lemma assign_all_app (calls1 calls2 : list SetterCall)
  (c : MlirOptMainConfig) :
  assign_all (calls1 ++ calls2) c = assign_all calls2 (assign_all calls1 c).
Proof. unfold assign_all. apply fold_left_app. Qed.

Lemma assign_all_frame (g : Getter) (calls : list SetterCall) :
  forall c : MlirOptMainConfig,
    Forall (fun s => named s <> read g) calls ->
    observe g (assign_all calls c) = observe g c.
Proof.
  induction calls as [|s calls IH]; intros c Hcalls.
  - reflexivity.
  - inversion Hcalls as [|s' calls' Hs Hrest]; subst.
    rewrite assign_all_cons, IH by assumption.
    apply assign_frame. congruence.
Qed.

(** X1: two setter calls that name different options commute: made in either
    order on a configuration, they leave the same configuration. *)
Theorem setters_of_different_options_commute
  (s1 s2 : SetterCall) (c : MlirOptMainConfig) :
  named s1 <> named s2 ->
  assign s2 (assign s1 c) = assign s1 (assign s2 c).
Proof.
  intros Hdiff.
  destruct s1, s2; try reflexivity; exfalso; apply Hdiff; reflexivity.
Qed.

(** X2: a setter call overwrites what an earlier call naming the same option
    set: the two calls in a row leave the configuration the second call
    alone leaves.  In particular a repeated call changes nothing more. *)
Theorem later_setter_call_overwrites_earlier
  (s1 s2 : SetterCall) (c : MlirOptMainConfig) :
  named s1 = named s2 ->
  assign s2 (assign s1 c) = assign s2 c /\
  assign s2 (assign s2 c) = assign s2 c.
Proof.
  intros Hsame. split.
  - destruct s1, s2; cbn in Hsame; try discriminate Hsame; reflexivity.
  - destruct s2; reflexivity.
Qed.

(** X3: each boolean setter followed by its getter returns the argument of
    the setter, whatever the configuration held before. *)
Theorem boolean_setter_then_getter (c : MlirOptMainConfig) (v : bool) :
  shouldAllowUnregisteredDialects (allowUnregisteredDialects v c) = v /\
  shouldDumpPassPipeline (dumpPassPipeline v c) = v /\
  shouldEmitBytecode (emitBytecode v c) = v /\
  shouldListPasses (listPasses v c) = v /\
  shouldRunReproducer (runReproducer v c) = v /\
  shouldShowDialects (showDialects v c) = v /\
  shouldUseExplicitModule (useExplicitModule v c) = v /\
  shouldVerifyPasses (verifyPasses v c) = v /\
  shouldVerifyRoundtrip (verifyRoundtrip v c) = v.
Proof. repeat split. Qed.

(** X4: each setter of a non-boolean option followed by its getter returns
    the argument: the debug configuration, the IRDL file, the two split
    markers (the default one when the argument is left out), the bytecode
    version, which becomes present, and the level of diagnostic
    verification, which switches verification on exactly when it is not
    [None]. *)
Theorem valued_setter_then_getter (c : MlirOptMainConfig) :
  (forall config : DebugConfig,
     getDebugConfig (setDebugConfig config c) = config) /\
  (forall file : string, getIrdlFile (setIrdlFile file c) = file) /\
  (forall version : Z,
     bytecodeVersionToEmit (setEmitBytecodeVersion version c)
     = Some version) /\
  (forall marker : string,
     inputSplitMarker (splitInputFile marker c) = marker) /\
  (forall marker : string,
     outputSplitMarker (outputSplitMarker_set marker c) = marker) /\
  inputSplitMarker (splitInputFile_default c) = kDefaultSplitMarker /\
  outputSplitMarker (outputSplitMarker_set_default c)
  = kDefaultSplitMarker /\
  (forall level : SourceMgrDiagnosticVerifierHandler.Level,
     verifyDiagnosticsLevel (verifyDiagnostics level c) = level /\
     (shouldVerifyDiagnostics (verifyDiagnostics level c) = true <->
      level <> SourceMgrDiagnosticVerifierHandler.None)).
Proof.
  repeat match goal with |- _ /\ _ => split end; try (intros; reflexivity).
  intros level. split; [reflexivity|].
  rewrite shouldVerifyDiagnostics_true. reflexivity.
Qed.

(** X5: calling a setter with the value its getter returns changes nothing:
    the configuration after the call is the configuration before it.  For
    the bytecode version this needs a version to be present, since the
    setter cannot be given an absent one. *)
Theorem setter_of_current_value_is_identity (c : MlirOptMainConfig) :
  allowUnregisteredDialects (shouldAllowUnregisteredDialects c) c = c /\
  setDebugConfig (getDebugConfig c) c = c /\
  dumpPassPipeline (shouldDumpPassPipeline c) c = c /\
  emitBytecode (shouldEmitBytecode c) c = c /\
  setIrdlFile (getIrdlFile c) c = c /\
  (forall version : Z,
     bytecodeVersionToEmit c = Some version ->
     setEmitBytecodeVersion version c = c) /\
  listPasses (shouldListPasses c) c = c /\
  runReproducer (shouldRunReproducer c) c = c /\
  showDialects (shouldShowDialects c) c = c /\
  splitInputFile (inputSplitMarker c) c = c /\
  outputSplitMarker_set (outputSplitMarker c) c = c /\
  useExplicitModule (shouldUseExplicitModule c) c = c /\
  verifyDiagnostics (verifyDiagnosticsLevel c) c = c /\
  verifyPasses (shouldVerifyPasses c) c = c /\
  verifyOnParsing (shouldVerifyOnParsing c) c = c /\
  verifyRoundtrip (shouldVerifyRoundtrip c) c = c.
Proof.
  destruct c as [? ? ? ? ? ? ? ? version0 ? ? ? ? ? ? ? ? ? ? noVerify ? ?].
  repeat match goal with |- _ /\ _ => split end; try reflexivity.
  - intros version Hversion.
    unfold bytecodeVersionToEmit in Hversion. cbn in Hversion. subst version0.
    reflexivity.
  - unfold verifyOnParsing, shouldVerifyOnParsing.
    cbn. rewrite negb_involutive. reflexivity.
Qed.

(** X6: after any sequence of setter calls, a getter whose option none of
    the calls names returns what it returned before the sequence; and a
    getter whose option is named returns what the last call naming it set,
    the same as if that call alone had been made. *)
Theorem setter_sequence_last_call_wins
  (g : Getter) (c : MlirOptMainConfig) :
  (forall calls : list SetterCall,
     Forall (fun s => named s <> read g) calls ->
     observe g (assign_all calls c) = observe g c) /\
  (forall (before : list SetterCall) (s : SetterCall)
          (after : list SetterCall),
     read g = named s ->
     Forall (fun s' => named s' <> read g) after ->
     observe g (assign_all (before ++ s :: after) c)
     = observe g (assign s c)).
Proof.
  split.
  - intros calls. apply assign_all_frame.
  - intros before s after Hnamed Hafter.
    rewrite assign_all_app, assign_all_cons.
    rewrite assign_all_frame by assumption.
    apply assign_determined, Hnamed.
Qed.

Lemma no_setter_names (o : OptionName) (calls : list SetterCall) :
  (forall s : SetterCall, named s <> o) ->
  Forall (fun s => named s <> o) calls.
Proof. intros Hnone. apply Forall_forall. intros s _. apply Hnone. Qed.

Lemma logActionLocationFilter_assign (s : SetterCall)
  (c : MlirOptMainConfig) :
  logActionLocationFilter (assign s c) = logActionLocationFilter c.
Proof. destruct s; reflexivity. Qed.

Lemma logActionLocationFilter_assign_all (calls : list SetterCall) :
  forall c : MlirOptMainConfig,
    logActionLocationFilter (assign_all calls c) = logActionLocationFilter c.
Proof.
  induction calls as [|s calls IH]; intros c.
  - reflexivity.
  - rewrite assign_all_cons, IH. apply logActionLocationFilter_assign.
Qed.

(** X7: four options have a getter and no setter in the header: the
    diagnostic verbosity level, the elision of resource data, the showing
    of notes and the reproducer file name; the location filter has neither.
    No sequence of setter calls changes any of them.  Starting from the
    default-constructed configuration, [shouldShowNotes()] therefore stays
    false and the verbosity level stays [ErrorsWarningsAndRemarks]. *)
Theorem options_without_setter_never_change
  (calls : list SetterCall) (c : MlirOptMainConfig) :
  (getDiagnosticVerbosityLevel (assign_all calls c)
   = getDiagnosticVerbosityLevel c /\
   shouldElideResourceDataFromBytecode (assign_all calls c)
   = shouldElideResourceDataFromBytecode c /\
   shouldShowNotes (assign_all calls c) = shouldShowNotes c /\
   getReproducerFilename (assign_all calls c) = getReproducerFilename c /\
   logActionLocationFilter (assign_all calls c)
   = logActionLocationFilter c) /\
  shouldShowNotes (assign_all calls defaultConfig) = false /\
  getDiagnosticVerbosityLevel (assign_all calls defaultConfig)
  = ErrorsWarningsAndRemarks.
Proof.
  assert (Hverbosity : forall c0,
             getDiagnosticVerbosityLevel (assign_all calls c0)
             = getDiagnosticVerbosityLevel c0).
  { intros c0.
    apply (assign_all_frame Get_getDiagnosticVerbosityLevel).
    apply no_setter_names. intros s. destruct s; discriminate. }
  assert (Hnotes : forall c0,
             shouldShowNotes (assign_all calls c0) = shouldShowNotes c0).
  { intros c0. apply (assign_all_frame Get_shouldShowNotes).
    apply no_setter_names. intros s. destruct s; discriminate. }
  split; [repeat split|split].
  - apply Hverbosity.
  - apply (assign_all_frame Get_shouldElideResourceDataFromBytecode).
    apply no_setter_names. intros s. destruct s; discriminate.
  - apply Hnotes.
  - apply (assign_all_frame Get_getReproducerFilename).
    apply no_setter_names. intros s. destruct s; discriminate.
  - apply logActionLocationFilter_assign_all.
  - rewrite Hnotes. reflexivity.
  - rewrite Hverbosity. reflexivity.
Qed.

(** X8: a chain of fluent setter calls made through a reference [this] to a
    configuration [c] returns [this] again; afterwards [this] refers to [c]
    with the calls' assignments made in order, and the chain has touched no
    other object. *)
Theorem fluent_chain_assigns_in_order (calls : list SetterCall) :
  forall (this : ref) (objects : gmap ref MlirOptMainConfig)
         (c : MlirOptMainConfig),
    objects !! this = Some c ->
    invoke_chain calls this objects
    = Some (this, <[this := assign_all calls c]> objects).
Proof.
  induction calls as [|s calls IH]; intros this objects c Hthis.
  - cbn [invoke_chain assign_all fold_left].
    rewrite insert_id by assumption. reflexivity.
  - cbn [invoke_chain]. unfold invoke.
    rewrite (fluent_returns_this _ _ _ _ Hthis).
    rewrite (IH this _ (assign s c)) by apply lookup_insert_eq.
    rewrite insert_insert_eq, assign_all_cons. reflexivity.
Qed.

Lemma bytecode_version_absent_after_assign (s : SetterCall)
  (c : MlirOptMainConfig) :
  bytecodeVersionToEmit (assign s c) = None <->
  bytecodeVersionToEmit c = None /\ named s <> Opt_emitBytecodeVersion.
Proof.
  unfold bytecodeVersionToEmit.
  destruct s; cbn [assign named]; (split; [intros H|intros [H Hs]]);
    try (split; [exact H|discriminate]); try exact H.
  - discriminate H.
  - exfalso. apply Hs. reflexivity.
Qed.

(** X9: the bytecode version is absent after a sequence of setter calls if
    and only if it was absent before and none of the calls is
    [setEmitBytecodeVersion]: once a version is set, no setter makes it
    absent again. *)
Theorem bytecode_version_once_set_stays_set (calls : list SetterCall) :
  forall c : MlirOptMainConfig,
    bytecodeVersionToEmit (assign_all calls c) = None <->
    bytecodeVersionToEmit c = None /\
    Forall (fun s => named s <> Opt_emitBytecodeVersion) calls.
Proof.
  induction calls as [|s calls IH]; intros c.
  - cbn [assign_all fold_left]. split; [intros H; split; [exact H|constructor]
                                       |intros [H _]; exact H].
  - rewrite assign_all_cons, IH, bytecode_version_absent_after_assign,
      Forall_cons.
    tauto.
Qed.

(** *** Failure of the pipeline set-up *)

(** X10: [setupPassPipeline(pm)] fails only through an installed callback
    that fails on [pm]; and installing an empty [std::function] removes the
    pipeline: the set-up then succeeds and leaves the pass manager as it
    was, whatever callback was installed before. *)
Theorem setupPassPipeline_fails_only_through_callback
  (c : MlirOptMainConfig) (pm : PassManager) :
  (failed (fst (setupPassPipeline c pm)) = true ->
   exists callback : PassPipelineCallback,
     passPipelineCallback c = Some callback /\
     failed (fst (callback pm)) = true) /\
  setupPassPipeline (setPassPipelineSetupFn None c) pm = (success, pm).
Proof.
  split; [|reflexivity].
  unfold setupPassPipeline.
  destruct (passPipelineCallback c) as [callback|] eqn:Hcallback.
  - intros Hfailed. exists callback. split; [reflexivity|exact Hfailed].
  - cbn. discriminate.
Qed.

(** X11: the exit code is 0 or 1; it is 0 only for a result that succeeded;
    and two results have the same exit code exactly when both succeeded or
    both failed. *)
Theorem asMainReturnCode_tells_success_from_failure
  (r1 r2 : LogicalResult) :
  (asMainReturnCode r1 = 0 \/ asMainReturnCode r1 = 1) /\
  (asMainReturnCode r1 = 0 <-> succeeded r1 = true) /\
  (asMainReturnCode r1 = asMainReturnCode r2 <->
   succeeded r1 = succeeded r2).
Proof.
  unfold asMainReturnCode, succeeded, EXIT_SUCCESS, EXIT_FAILURE.
  destruct r1 as [[|]], r2 as [[|]]; cbn [isSuccess];
    repeat split; auto; intros H; try discriminate H; try lia.
Qed.

End Config.

(** ** The properties at concrete configurations

    Below, a debug configuration carries no information ([unit]) and a pass
    manager is the list of the names of the passes added to it. *)

Lemma shouldVerifyDiagnostics_iff_level_not_None_witness :
  verifyDiagnosticsLevel unit (list string)
    (verifyDiagnostics unit (list string)
       SourceMgrDiagnosticVerifierHandler.Strict
       (defaultConfig unit tt (list string)))
  <> SourceMgrDiagnosticVerifierHandler.None.
Proof.
  apply (proj1 (shouldVerifyDiagnostics_iff_level_not_None unit tt
                  (list string)
                  (verifyDiagnostics unit (list string)
                     SourceMgrDiagnosticVerifierHandler.Strict
                     (defaultConfig unit tt (list string))))).
  reflexivity.
Defined.

Lemma asMainReturnCode_success_zero_failure_nonzero_witness :
  asMainReturnCode success = 0 /\ asMainReturnCode failure <> 0.
Proof.
  split.
  - apply (proj1 (asMainReturnCode_success_zero_failure_nonzero success)).
    reflexivity.
  - apply (proj2 (asMainReturnCode_success_zero_failure_nonzero failure)).
    reflexivity.
Defined.

Lemma setupPassPipeline_runs_installed_callback_witness :
  setupPassPipeline unit (list string)
    (defaultConfig unit tt (list string)) ["cse"%string]
  = (success, ["cse"%string]) /\
  setupPassPipeline unit (list string)
    (setPassPipelineSetupFn unit (list string)
       (Some (fun pm => (failure, "canonicalize"%string :: pm)))
       (defaultConfig unit tt (list string))) ["cse"%string]
  = (failure, ["canonicalize"%string; "cse"%string]).
Proof.
  split.
  - apply (proj1 (setupPassPipeline_runs_installed_callback unit tt
                    (list string) (defaultConfig unit tt (list string))
                    ["cse"%string])).
    reflexivity.
  - apply (proj1 (proj2 (setupPassPipeline_runs_installed_callback unit tt
                    (list string)
                    (setPassPipelineSetupFn unit (list string)
                       (Some (fun pm => (failure, "canonicalize"%string :: pm)))
                       (defaultConfig unit tt (list string)))
                    ["cse"%string]))
             (fun pm => (failure, "canonicalize"%string :: pm))).
    reflexivity.
Defined.

Lemma setter_returns_this_and_frames_other_options_witness :
  exists (objects' : gmap ref (MlirOptMainConfig unit (list string)))
         (c' : MlirOptMainConfig unit (list string)),
    invoke unit (list string) (Call_verifyPasses unit (list string) false)
      2%positive
      (<[2%positive := defaultConfig unit tt (list string)]> ∅)
    = Some (2%positive, objects') /\
    objects' !! 2%positive = Some c' /\
    (forall g : Getter,
       read g <> Opt_verifyPasses ->
       observe unit (list string) g c'
       = observe unit (list string) g (defaultConfig unit tt (list string))) /\
    (forall other : ref, other <> 2%positive ->
       objects' !! other
       = (<[2%positive := defaultConfig unit tt (list string)]> ∅
          : gmap ref (MlirOptMainConfig unit (list string))) !! other).
Proof.
  apply (setter_returns_this_and_frames_other_options unit (list string)
           (Call_verifyPasses unit (list string) false) 2%positive
           (<[2%positive := defaultConfig unit tt (list string)]> ∅)
           (defaultConfig unit tt (list string))).
  reflexivity.
Defined.

(** The chained call [c.setPassPipelineParser(p).setPassPipelineSetupFn(f)]
    followed by [setPassPipelineParser(p)] again, on pass managers that list
    pass names: in the end only the parser populates the pass manager. *)
Example pipeline_sources_in_turn :
  setupPassPipeline unit (list string)
    (fold_left (install unit (list string))
       [FromParser (list string)
          (MkPassPipelineCLParser (list string)
             (fun pm => (success, "inline"%string :: pm)));
        FromCallback (list string)
          (Some (fun pm => (failure, "canonicalize"%string :: pm)));
        FromParser (list string)
          (MkPassPipelineCLParser (list string)
             (fun pm => (success, "inline"%string :: pm)))]
       (defaultConfig unit tt (list string)))
    []
  = (success, ["inline"%string]).
Proof. reflexivity. Qed.

(** Two references to one configuration object: a setter called through one
    of them is seen through the reference the call returns, and a second
    object in the store keeps its own value. *)
Example fluent_call_on_shared_object :
  match invoke unit (list string) (Call_emitBytecode unit (list string) true)
          1%positive
          (<[1%positive := defaultConfig unit tt (list string)]>
             (<[2%positive := defaultConfig unit tt (list string)]> ∅)) with
  | Some (returned, objects') =>
      returned = 1%positive /\
      shouldEmitBytecode unit (list string) <$> objects' !! returned
      = Some true /\
      shouldEmitBytecode unit (list string) <$> objects' !! 2%positive
      = Some false
  | None => False
  end.
Proof. vm_compute. auto. Qed.

(** ** The composition properties at concrete configurations *)

Lemma setters_of_different_options_commute_witness :
  assign unit (list string) (Call_verifyPasses unit (list string) false)
    (assign unit (list string) (Call_emitBytecode unit (list string) true)
       (defaultConfig unit tt (list string)))
  = assign unit (list string) (Call_emitBytecode unit (list string) true)
      (assign unit (list string) (Call_verifyPasses unit (list string) false)
         (defaultConfig unit tt (list string))).
Proof.
  apply (setters_of_different_options_commute unit (list string)
           (Call_emitBytecode unit (list string) true)
           (Call_verifyPasses unit (list string) false)
           (defaultConfig unit tt (list string))).
  simpl. discriminate.
Defined.

Lemma later_setter_call_overwrites_earlier_witness :
  assign unit (list string)
    (Call_setIrdlFile unit (list string) "second.irdl"%string)
    (assign unit (list string)
       (Call_setIrdlFile unit (list string) "first.irdl"%string)
       (defaultConfig unit tt (list string)))
  = assign unit (list string)
      (Call_setIrdlFile unit (list string) "second.irdl"%string)
      (defaultConfig unit tt (list string)).
Proof.
  apply (proj1 (later_setter_call_overwrites_earlier unit (list string)
                  (Call_setIrdlFile unit (list string) "first.irdl"%string)
                  (Call_setIrdlFile unit (list string) "second.irdl"%string)
                  (defaultConfig unit tt (list string)) eq_refl)).
Defined.

Lemma valued_setter_then_getter_witness :
  SourceMgrDiagnosticVerifierHandler.Loose
  <> SourceMgrDiagnosticVerifierHandler.None.
Proof.
  destruct (valued_setter_then_getter unit (list string) "// -----"%string
              (defaultConfig unit tt (list string)))
    as (_ & _ & _ & _ & _ & _ & _ & Hlevel).
  apply (proj1 (proj2 (Hlevel SourceMgrDiagnosticVerifierHandler.Loose))).
  reflexivity.
Defined.

Lemma setter_of_current_value_is_identity_witness :
  setEmitBytecodeVersion unit (list string) 6
    (setEmitBytecodeVersion unit (list string) 6
       (defaultConfig unit tt (list string)))
  = setEmitBytecodeVersion unit (list string) 6
      (defaultConfig unit tt (list string)).
Proof.
  destruct (setter_of_current_value_is_identity unit (list string)
              (setEmitBytecodeVersion unit (list string) 6
                 (defaultConfig unit tt (list string))))
    as (_ & _ & _ & _ & _ & Hversion & _).
  apply Hversion. reflexivity.
Defined.

Lemma setter_sequence_last_call_wins_witness :
  observe unit (list string) Get_shouldEmitBytecode
    (assign_all unit (list string)
       ([Call_emitBytecode unit (list string) false]
        ++ Call_emitBytecode unit (list string) true
        :: [Call_verifyPasses unit (list string) false])
       (defaultConfig unit tt (list string)))
  = observe unit (list string) Get_shouldEmitBytecode
      (assign unit (list string) (Call_emitBytecode unit (list string) true)
         (defaultConfig unit tt (list string))).
Proof.
  apply (proj2 (setter_sequence_last_call_wins unit (list string)
                  Get_shouldEmitBytecode
                  (defaultConfig unit tt (list string)))).
  - reflexivity.
  - repeat constructor. simpl. discriminate.
Defined.

Lemma fluent_chain_assigns_in_order_witness :
  invoke_chain unit (list string)
    [Call_emitBytecode unit (list string) true;
     Call_verifyPasses unit (list string) false]
    2%positive (<[2%positive := defaultConfig unit tt (list string)]> ∅)
  = Some (2%positive,
          <[2%positive :=
              assign_all unit (list string)
                [Call_emitBytecode unit (list string) true;
                 Call_verifyPasses unit (list string) false]
                (defaultConfig unit tt (list string))]>
            (<[2%positive := defaultConfig unit tt (list string)]> ∅)).
Proof.
  apply (fluent_chain_assigns_in_order unit (list string)).
  reflexivity.
Defined.

Lemma bytecode_version_once_set_stays_set_witness :
  bytecodeVersionToEmit unit (list string)
    (defaultConfig unit tt (list string)) = None /\
  Forall (fun s => named unit (list string) s <> Opt_emitBytecodeVersion)
    [Call_emitBytecode unit (list string) true].
Proof.
  apply (proj1 (bytecode_version_once_set_stays_set unit (list string)
                  [Call_emitBytecode unit (list string) true]
                  (defaultConfig unit tt (list string)))).
  reflexivity.
Defined.

Lemma setupPassPipeline_fails_only_through_callback_witness :
  exists callback : PassPipelineCallback (list string),
    passPipelineCallback unit (list string)
      (setPassPipelineSetupFn unit (list string)
         (Some (fun pm => (failure, "canonicalize"%string :: pm)))
         (defaultConfig unit tt (list string)))
    = Some callback /\
    failed (fst (callback ["cse"%string])) = true.
Proof.
  apply (proj1 (setupPassPipeline_fails_only_through_callback unit
                  (list string)
                  (setPassPipelineSetupFn unit (list string)
                     (Some (fun pm => (failure, "canonicalize"%string :: pm)))
                     (defaultConfig unit tt (list string)))
                  ["cse"%string])).
  reflexivity.
Defined.

Lemma asMainReturnCode_tells_success_from_failure_witness :
  asMainReturnCode success = 0 /\
  asMainReturnCode failure = asMainReturnCode failure.
Proof.
  split.
  - apply (proj2 (proj1 (proj2
             (asMainReturnCode_tells_success_from_failure success failure)))).
    reflexivity.
  - apply (proj2 (proj2 (proj2
             (asMainReturnCode_tells_success_from_failure failure failure)))).
    reflexivity.
Defined.
